(** * react-attractor: the tether store, its provider scope and the
    [withTether] wrapper, embedded from [src/TetherContext.tsx] and
    [src/withTether.tsx], with the hooks of
    [examples/typed-metadata-example.tsx].

    The host framework (React) and the JavaScript runtime are modelled only
    as far as the library's own code touches them:
    - mutable state lives in a [World]: the [WeakMap] held by every
      provider instance's [useRef] cell, and the heap of [TetherMetadata]
      records, which are passed around by reference;
    - a call either completes normally or throws ([completion]);
    - a closure is its captured variables: both accessors of a provider
      capture only [tetherMapRef], and the ref callback of a wrapper
      captures [registerTether] and [finalMetadata]. *)

From Stdlib Require Import ZArith.
From stdpp Require Import base option list strings gmap fin_maps.

Local Open Scope string_scope.
Set Warnings "-register-all".

(** ** JavaScript values *)

Module JS.

(** A function value made by this library: the ref callback of a tethered
    component, given by the variables it closes over. *)
Inductive closure : Type :=
| CTetherRef (tetherMapRef : positive) (finalMetadata : positive).

(** Values of type [unknown].  An object is given by its own properties and
    its prototype chain; a function is an object that can be called.  The
    library never computes with numbers, which are carried as integers. *)
Inductive value : Type :=
| VUndefined
| VNull
| VBoolean (b : bool)
| VNumber (n : Z)
| VBigInt (n : Z)
| VString (s : string)
| VSymbol (description : string)
| VObject (o : object)
| VFunction (o : object)
| VClosure (f : closure)
with object : Type :=
| Obj (own : list (string * value)) (proto : option object).

(** The [typeof] operator. *)
Definition typeof (v : value) : string :=
  match v with
  | VUndefined => "undefined"
  | VNull => "object"
  | VBoolean _ => "boolean"
  | VNumber _ => "number"
  | VBigInt _ => "bigint"
  | VString _ => "string"
  | VSymbol _ => "symbol"
  | VObject _ => "object"
  | VFunction _ => "function"
  | VClosure _ => "function"
  end.

(** [v !== null]. *)
Definition not_null (v : value) : bool :=
  match v with
  | VNull => false
  | _ => true
  end.

(** HasProperty: own properties first, then the prototype chain. *)
Fixpoint has_property (k : string) (o : object) : bool :=
  match o with
  | Obj own proto =>
      existsb (fun kv => String.eqb k (fst kv)) own
      || match proto with
         | Some p => has_property k p
         | None => false
         end
  end.

(** Errors that can be thrown. *)
Inductive error : Type :=
| Error (message : string)
| TypeError (message : string).

(** The result of a call. *)
Inductive completion (A : Type) : Type :=
| Normal (a : A)
| Throw (e : error).
Arguments Normal {A} a.
Arguments Throw {A} e.

(** [k in v]: a TypeError when the right operand is not an object. *)
Definition js_in (k : string) (v : value) : completion bool :=
  match v with
  | VObject o | VFunction o => Normal (has_property k o)
  | VClosure _ => Normal false
  | _ => Throw (TypeError "Cannot use 'in' operator to search for a key in a non-object")
  end.

(** [a && b] with [b] evaluated only when [a] is true. *)
Definition and_then (a : bool) (b : completion bool) : completion bool :=
  if a then b else Normal false.

(** [a || b] on [string | undefined]: the empty string and [undefined] are
    falsy. *)
Definition truthy_string (a : option string) : bool :=
  match a with
  | Some s => negb (String.eqb s EmptyString)
  | None => false
  end.

Definition or_else (a b : option string) : option string :=
  if truthy_string a then a else b.

(** [`${a}`] for [a : string | undefined]. *)
Definition to_string (a : option string) : string :=
  match a with
  | Some s => s
  | None => "undefined"
  end.

End JS.
Export JS.

(** ** withTether.tsx: the type guard *)

(** [component !== null && typeof component === 'object' &&
     component !== null && '$$typeof' in component] *)
Definition isForwardRefComponent (component : value) : completion bool :=
  and_then (not_null component)
    (and_then (String.eqb (typeof component) "object")
       (and_then (not_null component)
          (js_in "$$typeof" component))).

(** ** The world: provider ref cells and the record heap *)

(** Identity of a DOM element, of a [TetherMetadata] record, and of the
    [useRef] cell of a mounted [TetherProvider] instance. *)
Definition elem := positive.
Definition loc := positive.
Definition ref := positive.

(** [Element | null] (and [undefined], which the guards treat alike). *)
Inductive elem_arg : Type :=
| ENull
| EUndefined
| EElement (e : elem).

(** Truthiness of an [Element | null | undefined]. *)
Definition truthy (element : elem_arg) : bool :=
  match element with
  | EElement _ => true
  | ENull | EUndefined => false
  end.

(** types.ts: [{ props: Record<string, unknown>, metadata?: TMetadata }]. *)
Record TetherMetadata : Type := mkTetherMetadata {
  props : gmap string value;
  metadata : value
}.

(** [WeakMap<Element, TetherMetadata>]: element identity to record
    reference. *)
Abbreviation WeakMap := (gmap elem loc).

Record World : Type := mkWorld {
  heap : gmap loc TetherMetadata;
  cells : gmap ref WeakMap
}.

Definition set_cells (f : gmap ref WeakMap -> gmap ref WeakMap) (w : World) : World :=
  {| heap := heap w; cells := f (cells w) |}.

Definition set_heap (f : gmap loc TetherMetadata -> gmap loc TetherMetadata) (w : World) : World :=
  {| heap := f (heap w); cells := cells w |}.

(** Computations: a completion and the world left behind. *)
Definition M (A : Type) : Type := World -> completion A * World.

Definition ret {A} (a : A) : M A := fun w => (Normal a, w).

Definition throw {A} (e : error) : M A := fun w => (Throw e, w).

Definition bind {A B} (m : M A) (k : A -> M B) : M B :=
  fun w =>
    match m w with
    | (Normal a, w') => k a w'
    | (Throw e, w') => (Throw e, w')
    end.

Notation "'let!' x ':=' m 'in' k" := (bind m (fun x => k))
  (at level 10, x name, m at level 100, k at level 200).

(** [cell.current], for a cell made by [useRef(new WeakMap())]; a cell that
    was never initialised reads [undefined], on which a method call throws. *)
Definition current (tetherMapRef : ref) : M WeakMap :=
  fun w =>
    match cells w !! tetherMapRef with
    | Some wm => (Normal wm, w)
    | None => (Throw (TypeError "Cannot read properties of undefined"), w)
    end.

(** [WeakMap.prototype.set], on the map held by [tetherMapRef]: the map is
    updated in place; a key that is not an object is a TypeError. *)
Definition WeakMap_set (tetherMapRef : ref) (key : elem_arg) (v : loc) : M unit :=
  let! wm := current tetherMapRef in
  match key with
  | EElement e => fun w => (Normal tt, set_cells (insert tetherMapRef (<[e := v]> wm)) w)
  | ENull | EUndefined => throw (TypeError "Invalid value used as weak map key")
  end.

(** [WeakMap.prototype.get]: [undefined] for a key that is absent or not an
    object. *)
Definition WeakMap_get (tetherMapRef : ref) (key : elem_arg) : M (option loc) :=
  let! wm := current tetherMapRef in
  match key with
  | EElement e => ret (wm !! e)
  | ENull | EUndefined => ret None
  end.

(** ** TetherContext.tsx *)

(** [{ registerTether, getTether }]: both closures capture [tetherMapRef]
    and nothing else. *)
Record TetherContextValue : Type := mkContext {
  tetherMapRef : ref
}.

(** [if (!element) return; tetherMapRef.current.set(element, metadata);] *)
Definition registerTether (c : TetherContextValue) (element : elem_arg) (metadata : loc) : M unit :=
  if negb (truthy element) then ret tt
  else WeakMap_set (tetherMapRef c) element metadata.

(** [return tetherMapRef.current.get(element);] *)
Definition getTether (c : TetherContextValue) (element : elem_arg) : M (option loc) :=
  WeakMap_get (tetherMapRef c) element.

(** [useRef(new WeakMap())] in the component instance [inst]: the cell is
    made on the first render and kept on every later one. *)
Definition useRef_WeakMap (inst : ref) : M ref :=
  fun w =>
    match cells w !! inst with
    | Some _ => (Normal inst, w)
    | None => (Normal inst, set_cells (insert inst (∅ : WeakMap)) w)
    end.

(** The providers enclosing a place of the tree, innermost first. *)
Definition context := list TetherContextValue.

(** [TetherProvider]: renders [children] under its own context value; the
    result is the context the children see. *)
Definition TetherProvider (inst : ref) (enclosing : context) : M context :=
  let! r := useRef_WeakMap inst in
  let contextValue := {| tetherMapRef := r |} in
  ret (contextValue :: enclosing).

(** [useContext(TetherContext)], with [createContext(null)]: the nearest
    enclosing provider's value, or [null]. *)
Definition useContext (ctx : context) : option TetherContextValue := head ctx.

Definition outside_provider_message : string :=
  "useTetherContext must be used within a TetherProvider".

(** [useTetherContext] *)
Definition useTetherContext (ctx : context) : M TetherContextValue :=
  match useContext ctx with
  | None => throw (Error outside_provider_message)
  | Some c => ret c
  end.

(** ** withTether.tsx: the wrapper *)

(** What [withTether] reads of a [React.ComponentType]: its optional
    [displayName], and its [name] (a function's own name, the empty string
    for an anonymous one; absent on a [forwardRef] object). *)
Record ComponentType : Type := mkComponent {
  displayName : option string;
  name : option string
}.

(** [<WrappedComponent {...componentProps} />] *)
Record ReactElement : Type := mkElement {
  el_type : ComponentType;
  el_props : gmap string value
}.

(** A fresh record on the heap: an object literal. *)
Definition alloc (o : TetherMetadata) : M loc :=
  fun w =>
    let l := fresh (dom (heap w)) in
    (Normal l, set_heap (insert l o) w).

(** [(element) => { if (element) { registerTether(element, finalMetadata); } }] *)
Definition tetherRef (registerTether : elem_arg -> loc -> M unit)
    (finalMetadata : loc) (element : elem_arg) : M unit :=
  if truthy element then registerTether element finalMetadata
  else ret tt.

(** Calling a closure with an [Element | null]. *)
Definition call (f : closure) (element : elem_arg) : M unit :=
  match f with
  | CTetherRef r finalMetadata =>
      tetherRef (registerTether {| tetherMapRef := r |}) finalMetadata element
  end.

(** The body of [TetheredComponent], one render with [props] at a place of
    the tree enclosed by [ctx].  [finalMetadata] is a new object at every
    render and is a dependency of [useCallback], so the callback is a new
    closure at every render too. *)
Definition TetheredComponent (WrappedComponent : ComponentType)
    (props : gmap string value) (ctx : context) : M ReactElement :=
  let tetherMetadata := default VUndefined (props !! "tetherMetadata") in
  let restProps := delete "tetherMetadata" props in
  let! c := useTetherContext ctx in
  let! finalMetadata :=
    alloc (mkTetherMetadata restProps tetherMetadata) in
  let tetherRef := VClosure (CTetherRef (tetherMapRef c) finalMetadata) in
  let componentProps := <["ref" := tetherRef]> restProps in
  ret {| el_type := WrappedComponent; el_props := componentProps |}.

(** The component [withTether] returns: its render function and the
    [displayName] set on it. *)
Record Tethered : Type := mkTethered {
  render : gmap string value -> context -> M ReactElement;
  tethered_displayName : string
}.

(** [withTether] *)
Definition withTether (WrappedComponent : ComponentType) : Tethered :=
  {| render := TetheredComponent WrappedComponent;
     tethered_displayName :=
       "withTether("
       ++ to_string (or_else (or_else (displayName WrappedComponent)
                                      (name WrappedComponent))
                             (Some "Component"))
       ++ ")" |}.

(** ** Histories *)

(** What the application and the framework can do to a world through this
    library: call an accessor, call a ref callback, render a provider
    instance, render a tethered component. *)
Inductive action : Type :=
| ARegister (c : TetherContextValue) (element : elem_arg) (metadata : loc)
| AGet (c : TetherContextValue) (element : elem_arg)
| ACall (f : closure) (element : elem_arg)
| ARenderProvider (inst : ref) (enclosing : context)
| ARenderTethered (WrappedComponent : ComponentType)
    (props : gmap string value) (ctx : context).

(** The world after an action; its completion is dropped, a throw leaves
    the world as it was when thrown. *)
Definition step (w : World) (a : action) : World :=
  match a with
  | ARegister c element metadata => snd (registerTether c element metadata w)
  | AGet c element => snd (getTether c element w)
  | ACall f element => snd (call f element w)
  | ARenderProvider inst enclosing => snd (TetherProvider inst enclosing w)
  | ARenderTethered W props ctx => snd (render (withTether W) props ctx w)
  end.

Definition run (acts : list action) (w : World) : World :=
  foldl step w acts.

(** The action is a [registerTether(e, _)] on the store of [r], made
    directly or by a ref callback. *)
Definition registers_on (r : ref) (e : elem) (a : action) : Prop :=
  match a with
  | ARegister c (EElement e') _ => tetherMapRef c = r /\ e' = e
  | ACall (CTetherRef r' _) (EElement e') => r' = r /\ e' = e
  | _ => False
  end.

(** ** The framework attaching refs *)

(** Commit of a rendered element: the framework calls the function under
    [ref] with the DOM node, or with [null] when it detaches. *)
Definition attach (el : ReactElement) (element : elem_arg) : M unit :=
  match el_props el !! "ref" with
  | Some (VClosure f) => call f element
  | _ => throw (TypeError "ref is not a function")
  end.

(** First render of a tethered component and attachment of its root node. *)
Definition mount (WrappedComponent : ComponentType) (props : gmap string value)
    (ctx : context) (element : elem_arg) : M ReactElement :=
  let! el := render (withTether WrappedComponent) props ctx in
  let! _ := attach el element in
  ret el.

(** A later render of the same instance: the callback is a new closure, so
    the framework detaches the old one with [null] and attaches the new one
    with the node. *)
Definition rerender (WrappedComponent : ComponentType)
    (props : gmap string value) (ctx : context) (old : ReactElement)
    (element : elem_arg) : M ReactElement :=
  let! el := render (withTether WrappedComponent) props ctx in
  let! _ := attach old ENull in
  let! _ := attach el element in
  ret el.

(** ** Reading what [getTether] returns *)

(** The record behind a reference.  A JavaScript reference always points to
    a live object; a location that is not on the heap stands for no value of
    the program, and reading it is an error of the model. *)
Definition deref (l : loc) : M TetherMetadata :=
  fun w =>
    match heap w !! l with
    | Some r => (Normal r, w)
    | None => (Throw (Error "no such record"), w)
    end.

(** [const tether = getTether(element)] followed by reads of [tether.props]
    and [tether.metadata], as the tests do. *)
Definition getTetherRecord (c : TetherContextValue) (element : elem_arg)
    : M (option TetherMetadata) :=
  let! tether := getTether c element in
  match tether with
  | None => ret None
  | Some l => let! r := deref l in ret (Some r)
  end.

(** ** examples/typed-metadata-example.tsx *)

(** ToBoolean. *)
Definition truthy_value (v : value) : bool :=
  match v with
  | VUndefined | VNull => false
  | VBoolean b => b
  | VNumber n | VBigInt n => negb (Z.eqb n 0)
  | VString s => negb (String.eqb s EmptyString)
  | VSymbol _ | VObject _ | VFunction _ | VClosure _ => true
  end.

(** A pure completion as a computation. *)
Definition lift {A} (r : completion A) : M A := fun w => (r, w).

(** [const tether = getTether(element); return tether?.metadata;] *)
Definition getTypedMetadata (c : TetherContextValue) (element : elem_arg)
    : M value :=
  let! tether := getTether c element in
  match tether with
  | None => ret VUndefined
  | Some l => let! r := deref l in ret (metadata r)
  end.

(** [useTypedTether] *)
Definition useTypedTether (ctx : context) : M (elem_arg -> M value) :=
  let! c := useTetherContext ctx in
  ret (getTypedMetadata c).

(** [if (tether?.metadata && 'userId' in tether.metadata)
       { return tether.metadata; }
     return undefined;] *)
Definition getUserMetadata (c : TetherContextValue) (element : elem_arg)
    : M value :=
  let! tether := getTether c element in
  match tether with
  | None => ret VUndefined
  | Some l =>
      let! r := deref l in
      if truthy_value (metadata r) then
        let! has := lift (js_in "userId" (metadata r)) in
        if (has : bool) then ret (metadata r) else ret VUndefined
      else ret VUndefined
  end.

(** [useUserTether] *)
Definition useUserTether (ctx : context) : M (elem_arg -> M value) :=
  let! c := useTetherContext ctx in
  ret (getUserMetadata c).

(** ** Registrations in a history *)

(** The record that an action registers for [e] on the store of [r], when
    it does. *)
Definition registration (r : ref) (e : elem) (a : action) : option loc :=
  match a with
  | ARegister c (EElement e') m =>
      if decide (tetherMapRef c = r /\ e' = e) then Some m else None
  | ACall (CTetherRef r' m) (EElement e') =>
      if decide (r' = r /\ e' = e) then Some m else None
  | _ => None
  end.

(** The last registration for [e] on the store of [r] in a history. *)
Definition last_registration (r : ref) (e : elem) (acts : list action)
    : option loc :=
  last (omap (registration r e) acts).

(** ** Sample inputs, after the repository's tests *)

Definition empty_world : World := {| heap := ∅; cells := ∅ |}.

(** [SimpleBox], a [forwardRef] component with [displayName] set. *)
Definition SimpleBox : ComponentType :=
  {| displayName := Some "SimpleBox"; name := None |}.

(** A [forwardRef] component without [displayName]. *)
Definition AnonymousComponent : ComponentType :=
  {| displayName := None; name := None |}.

(** [<TetheredBox label="Hello World" color="#ff6b6b"
      tetherMetadata={...} />], the metadata object standing as one value. *)
Definition sample_props : gmap string value :=
  <["label" := VString "Hello World"]>
    (<["color" := VString "#ff6b6b"]>
       (<["tetherMetadata" :=
            VObject (Obj [("userId", VNumber 123);
                          ("category", VString "greeting")] None)]> ∅)).

(** Mount a provider, render a tethered [SimpleBox] under it, let the
    framework attach the ref to element [7], then look that element up. *)
Definition sample_session : M (option loc) :=
  let! ctx := TetherProvider 1%positive [] in
  let! el := render (withTether SimpleBox) sample_props ctx in
  let! _ := match el_props el !! "ref" with
            | Some (VClosure f) => call f (EElement 7%positive)
            | _ => throw (TypeError "ref is not a function")
            end in
  let! c := useTetherContext ctx in
  getTether c (EElement 7%positive).

(** Two sibling providers; element [7] is registered under the first. *)
Definition two_providers : World :=
  run [ARenderProvider 1%positive []; ARenderProvider 2%positive [];
       ARegister {| tetherMapRef := 1%positive |} (EElement 7%positive)
         4%positive]
      empty_world.

(** A history on provider [1] that never registers element [7] there. *)
Definition sample_history : list action :=
  [ARegister {| tetherMapRef := 1%positive |} (EElement 5%positive) 9%positive;
   ARenderProvider 2%positive [{| tetherMapRef := 1%positive |}];
   ARegister {| tetherMapRef := 2%positive |} (EElement 7%positive) 3%positive;
   ACall (CTetherRef 1%positive 3%positive) ENull;
   ARenderProvider 1%positive [];
   AGet {| tetherMapRef := 1%positive |} (EElement 7%positive)].

(** One provider, and one tethered [SimpleBox] mounted on element [7] with
    [label] and the given [tetherMetadata]. *)
Definition world_with_metadata (md : value) : World :=
  snd (mount SimpleBox
         (<["label" := VString "Box"]> (<["tetherMetadata" := md]> ∅))
         [{| tetherMapRef := 1%positive |}] (EElement 7%positive)
         (snd (TetherProvider 1%positive [] empty_world))).

(** A history on provider [1] in which element [7] is registered twice and
    then detached. *)
Definition update_history : list action :=
  sample_history
  ++ [ARegister {| tetherMapRef := 1%positive |} (EElement 7%positive)
        6%positive;
      ACall (CTetherRef 1%positive 8%positive) (EElement 7%positive);
      ACall (CTetherRef 1%positive 8%positive) ENull;
      ARenderTethered SimpleBox sample_props [{| tetherMapRef := 1%positive |}]].

(** ** Running the accessors *)

Section Accessors.

Implicit Types (w : World) (c : TetherContextValue) (e : elem) (m : loc).

Lemma registerTether_element w c e m wm :
  cells w !! tetherMapRef c = Some wm ->
  registerTether c (EElement e) m w
  = (Normal tt, set_cells (insert (tetherMapRef c) (<[e := m]> wm)) w).
Proof.
  intros Hwm. unfold registerTether, WeakMap_set, bind, current. simpl.
  by rewrite Hwm.
Qed.

Lemma registerTether_dangling w c e m :
  cells w !! tetherMapRef c = None ->
  snd (registerTether c (EElement e) m w) = w.
Proof.
  intros Hwm. unfold registerTether, WeakMap_set, bind, current. simpl.
  by rewrite Hwm.
Qed.

Lemma registerTether_falsy w c (element : elem_arg) m :
  truthy element = false -> registerTether c element m w = (Normal tt, w).
Proof. intros H. unfold registerTether. by rewrite H. Qed.

Lemma getTether_element w c e wm :
  cells w !! tetherMapRef c = Some wm ->
  getTether c (EElement e) w = (Normal (wm !! e), w).
Proof.
  intros Hwm. unfold getTether, WeakMap_get, bind, current.
  by rewrite Hwm.
Qed.

(** A lookup never changes the world. *)
Lemma getTether_pure w c (element : elem_arg) :
  snd (getTether c element w) = w.
Proof.
  unfold getTether, WeakMap_get, bind, current.
  destruct (cells w !! tetherMapRef c); [by destruct element | done].
Qed.

(** A registration never touches the records themselves. *)
Lemma registerTether_heap w c (element : elem_arg) m :
  heap (snd (registerTether c element m w)) = heap w.
Proof.
  destruct element as [| |e]; try by rewrite registerTether_falsy.
  destruct (cells w !! tetherMapRef c) as [wm|] eqn:Hwm.
  - by rewrite (registerTether_element _ _ _ _ wm).
  - by rewrite registerTether_dangling.
Qed.

(** What a registration does to the cell of any provider. *)
Lemma registerTether_cells w c (element : elem_arg) m r :
  cells (snd (registerTether c element m w)) !! r
  = match element, cells w !! tetherMapRef c with
    | EElement e, Some wm =>
        if decide (tetherMapRef c = r) then Some (<[e := m]> wm)
        else cells w !! r
    | _, _ => cells w !! r
    end.
Proof.
  destruct element as [| |e]; try by rewrite registerTether_falsy.
  destruct (cells w !! tetherMapRef c) as [wm|] eqn:Hwm.
  - rewrite (registerTether_element _ _ _ _ wm) by done. simpl.
    by rewrite lookup_insert.
  - by rewrite registerTether_dangling.
Qed.

End Accessors.

(** ** The store *)

(** C1. Round trip: on a provider's store, [registerTether(e, m)] with a
    non-null element [e] returns normally, and [getTether(e)] then returns
    the very reference [m] that was registered; the lookup changes nothing,
    and the registration leaves every record (so the [props] and [metadata]
    of [m]) as it was. *)
Theorem register_get_roundtrip (w : World) (c : TetherContextValue)
    (e : elem) (m : loc) :
  is_Some (cells w !! tetherMapRef c) ->
  let w1 := snd (registerTether c (EElement e) m w) in
  fst (registerTether c (EElement e) m w) = Normal tt
  /\ getTether c (EElement e) w1 = (Normal (Some m), w1)
  /\ heap w1 = heap w.
Proof.
  intros [wm Hwm]. cbv zeta.
  rewrite (registerTether_element _ _ _ _ wm) by done. simpl.
  split; [done|]. split; [|done].
  erewrite getTether_element.
  - by rewrite lookup_insert_eq.
  - simpl. apply lookup_insert_eq.
Qed.

(** C2. Overwrite: after [registerTether(e, m1)] and then
    [registerTether(e, m2)] on the same store, [getTether(e)] returns [m2];
    the world is the one in which only [m2] was ever registered for [e], so
    nothing of [m1] is merged in or left to observe. *)
Theorem register_overwrites (w : World) (c : TetherContextValue)
    (e : elem) (m1 m2 : loc) :
  is_Some (cells w !! tetherMapRef c) ->
  let w1 := snd (registerTether c (EElement e) m1 w) in
  let w2 := snd (registerTether c (EElement e) m2 w1) in
  getTether c (EElement e) w2 = (Normal (Some m2), w2)
  /\ w2 = snd (registerTether c (EElement e) m2 w)
  /\ heap w2 = heap w.
Proof.
  intros [wm Hwm]. cbv zeta.
  rewrite (registerTether_element w _ _ m1 wm) by done. simpl.
  rewrite (registerTether_element w _ _ m2 wm) by done. simpl.
  erewrite registerTether_element by (simpl; apply lookup_insert_eq).
  unfold set_cells. simpl. rewrite !insert_insert_eq.
  split; [|done].
  erewrite getTether_element by (simpl; apply lookup_insert_eq).
  by rewrite lookup_insert_eq.
Qed.

(** C5. Registering with a [null] or [undefined] element returns normally
    (no value, no error) and leaves the whole world as it was, whatever the
    store holds, so every later [getTether] answers as before. *)
Theorem register_null_noop (w : World) (c : TetherContextValue) (m : loc) :
  registerTether c ENull m w = (Normal tt, w)
  /\ registerTether c EUndefined m w = (Normal tt, w)
  /\ (forall (c' : TetherContextValue) (x : elem_arg),
        getTether c' x (snd (registerTether c ENull m w)) = getTether c' x w
        /\ getTether c' x (snd (registerTether c EUndefined m w))
           = getTether c' x w).
Proof. repeat split. Qed.

(** ** Histories of a store *)

Section History.

Implicit Types (w : World) (a : action) (r : ref) (e : elem).

Lemma TetherProvider_run (inst : ref) (enclosing : context) w :
  TetherProvider inst enclosing w
  = (Normal ({| tetherMapRef := inst |} :: enclosing),
     match cells w !! inst with
     | Some _ => w
     | None => set_cells (insert inst (∅ : WeakMap)) w
     end).
Proof.
  unfold TetherProvider, bind, useRef_WeakMap, ret.
  by destruct (cells w !! inst).
Qed.

Lemma TetheredComponent_cells (W : ComponentType) (p : gmap string value)
    (ctx : context) w :
  cells (snd (TetheredComponent W p ctx w)) = cells w.
Proof.
  unfold TetheredComponent, useTetherContext, useContext, bind.
  by destruct ctx.
Qed.

(** An action that is not a registration of [e] on the store of [r] keeps
    [e] absent from that store. *)
Lemma step_keeps_absent w a r e wm :
  cells w !! r = Some wm -> wm !! e = None -> ~ registers_on r e a ->
  exists wm', cells (step w a) !! r = Some wm' /\ wm' !! e = None.
Proof.
  intros Hr He Hnot.
  assert (Hreg : forall c (element : elem_arg) m,
    ~ (exists e', element = EElement e' /\ tetherMapRef c = r /\ e' = e) ->
    exists wm', cells (snd (registerTether c element m w)) !! r = Some wm'
                /\ wm' !! e = None).
  { intros c element m Hn. rewrite registerTether_cells.
    destruct element as [| |e']; try by eauto.
    destruct (cells w !! tetherMapRef c) as [wmc|] eqn:Hc; [|by eauto].
    case_decide as Heq; [|by eauto].
    subst r. rewrite Hr in Hc. injection Hc as <-.
    eexists. split; [done|].
    rewrite lookup_insert_ne; [done|].
    intros ->. apply Hn. eauto. }
  destruct a as [c element m|c element|[r' m] element|inst enclosing|W p ctx];
    simpl in *.
  - apply Hreg. intros (e' & -> & ? & ?). by apply Hnot.
  - rewrite getTether_pure. eauto.
  - unfold tetherRef. destruct element as [| |e']; simpl; try by eauto.
    apply Hreg. intros (e'' & [= <-] & ? & ?). by apply Hnot.
  - rewrite TetherProvider_run. simpl.
    destruct (cells w !! inst) eqn:Hi; [by eauto|]. simpl.
    rewrite lookup_insert_ne; [by eauto|]. intros ->. congruence.
  - rewrite TetheredComponent_cells. eauto.
Qed.

Lemma run_keeps_absent (acts : list action) w r e wm :
  cells w !! r = Some wm -> wm !! e = None ->
  Forall (fun a => ~ registers_on r e a) acts ->
  exists wm', cells (run acts w) !! r = Some wm' /\ wm' !! e = None.
Proof.
  revert w wm. induction acts as [|a acts IH]; intros w wm Hr He Hall.
  - simpl. eauto.
  - inversion Hall as [|? ? Ha Hacts]; subst.
    destruct (step_keeps_absent w a r e wm Hr He Ha) as (wm' & Hr' & He').
    apply (IH (step w a) wm' Hr' He' Hacts).
Qed.

End History.

(** C3. Absent result: take a provider instance at its first render (its
    store is a new [WeakMap]) and any history of accessor calls, ref
    callbacks and renders after it; when none of them is a
    [registerTether(e, _)] on that store, [getTether(e)] returns [undefined]
    as an ordinary result, without throwing and without changing the world. *)
Theorem get_unregistered_absent (w : World) (inst : ref) (enclosing : context)
    (acts : list action) (e : elem) :
  cells w !! inst = None ->
  Forall (fun a => ~ registers_on inst e a) acts ->
  let w1 := run acts (snd (TetherProvider inst enclosing w)) in
  getTether {| tetherMapRef := inst |} (EElement e) w1 = (Normal None, w1).
Proof.
  intros Hfresh Hall. cbv zeta.
  rewrite TetherProvider_run, Hfresh. simpl.
  destruct (run_keeps_absent acts (set_cells (insert inst (∅ : WeakMap)) w)
              inst e ∅) as (wm' & Hr' & He'); [| |done|].
  - simpl. apply lookup_insert_eq.
  - apply lookup_empty.
  - erewrite getTether_element by exact Hr'. by rewrite He'.
Qed.

(** ** Provider scope *)

(** C4. Outside any provider the accessor throws an [Error] whose message
    names the misuse, and so does the render of a tethered component; the
    throw comes first: the world is untouched, no accessor is handed out,
    and no element is produced. *)
Theorem useTetherContext_outside_provider (w : World) :
  useTetherContext [] w
  = (Throw (Error "useTetherContext must be used within a TetherProvider"), w)
  /\ (forall (W : ComponentType) (p : gmap string value),
        render (withTether W) p [] w
        = (Throw (Error "useTetherContext must be used within a TetherProvider"),
           w)).
Proof. split; [done|]. intros W p. done. Qed.

(** C6. Isolation: two distinct provider instances [i] and [j], rendered
    anywhere (nested or side by side), hand out two different context
    values; a component under [j] gets [j]'s value and no other; and a
    registration through one of them, for any element, changes no answer of
    the other's [getTether]. *)
Theorem provider_isolation (w : World) (i j : ref) (enc_i enc_j : context) :
  i <> j ->
  let ci := {| tetherMapRef := i |} in
  let cj := {| tetherMapRef := j |} in
  fst (TetherProvider i enc_i w) = Normal (ci :: enc_i)
  /\ fst (TetherProvider j enc_j w) = Normal (cj :: enc_j)
  /\ ci <> cj
  /\ useTetherContext (cj :: enc_j) w = (Normal cj, w)
  /\ (forall (element x : elem_arg) (m : loc),
        fst (getTether cj x (snd (registerTether ci element m w)))
        = fst (getTether cj x w))
  /\ (forall (element x : elem_arg) (m : loc),
        fst (getTether ci x (snd (registerTether cj element m w)))
        = fst (getTether ci x w)).
Proof.
  intros Hij. cbv zeta.
  assert (Hiso : forall (a b : ref) (element x : elem_arg) (m : loc),
    a <> b ->
    fst (getTether {| tetherMapRef := b |} x
           (snd (registerTether {| tetherMapRef := a |} element m w)))
    = fst (getTether {| tetherMapRef := b |} x w)).
  { intros a b element x m Hab.
    unfold getTether, WeakMap_get, bind, current.
    rewrite registerTether_cells. simpl.
    assert (Hb : match element, cells w !! a with
                 | EElement e, Some wm =>
                     if decide (a = b) then Some (<[e := m]> wm)
                     else cells w !! b
                 | _, _ => cells w !! b
                 end = cells w !! b).
    { destruct element as [| |e]; try done.
      destruct (cells w !! a); [|done]. by rewrite decide_False. }
    rewrite Hb.
    destruct (cells w !! b); [by destruct x | done]. }
  rewrite !TetherProvider_run. simpl.
  repeat split; [congruence|..]; intros; by apply Hiso.
Qed.

(** ** The wrapper *)

(** C7. One render of the component made by [withTether], under a nearest
    enclosing provider [c]: the props split into the value of
    [tetherMetadata] ([undefined] when not given) and the remaining props;
    the element is the wrapped component with the remaining props, each as
    passed, and the ref callback under [ref]; a fresh record
    [{ props: remaining, metadata: tetherMetadata }] is made; the callback
    called with an element [e] is [registerTether(e, that record)] on [c]'s
    store, and called with [null] or [undefined] it does nothing. *)
Theorem withTether_partition_and_payload (W : ComponentType)
    (p : gmap string value) (c : TetherContextValue) (ctx : context)
    (w : World) :
  exists (restProps : gmap string value) (finalMetadata : loc),
    let tetherRef := CTetherRef (tetherMapRef c) finalMetadata in
    restProps !! "tetherMetadata" = None
    /\ (forall k, k <> "tetherMetadata" -> restProps !! k = p !! k)
    /\ heap w !! finalMetadata = None
    /\ render (withTether W) p (c :: ctx) w
       = (Normal {| el_type := W;
                    el_props := <["ref" := VClosure tetherRef]> restProps |},
          set_heap (insert finalMetadata
                      (mkTetherMetadata restProps
                         (default VUndefined (p !! "tetherMetadata")))) w)
    /\ (forall k, k <> "ref" ->
          (<["ref" := VClosure tetherRef]> restProps) !! k = restProps !! k)
    /\ (forall (e : elem) (w' : World),
          call tetherRef (EElement e) w'
          = registerTether c (EElement e) finalMetadata w')
    /\ (forall w' : World,
          call tetherRef ENull w' = (Normal tt, w')
          /\ call tetherRef EUndefined w' = (Normal tt, w')).
Proof.
  exists (delete "tetherMetadata" p), (fresh (dom (heap w))). cbv zeta.
  split; [apply lookup_delete_eq|].
  split; [by intros k Hk; apply lookup_delete_ne|].
  split; [apply not_elem_of_dom, is_fresh|].
  split; [done|].
  split; [by intros k Hk; apply lookup_insert_ne|].
  split; [by destruct c|done].
Qed.

(** C9. The component made by [withTether(C)] carries the display name
    [withTether(<inner>)]: <inner> is C's [displayName] when C has one (set
    and not empty); otherwise C's function [name] when it has one; and the
    placeholder [Component] when it has neither. *)
Theorem withTether_displayName (C : ComponentType) :
  (forall d, displayName C = Some d -> d <> EmptyString ->
     tethered_displayName (withTether C) = "withTether(" ++ d ++ ")")
  /\ (forall n, displayName C = None \/ displayName C = Some EmptyString ->
        name C = Some n -> n <> EmptyString ->
        tethered_displayName (withTether C) = "withTether(" ++ n ++ ")")
  /\ (displayName C = None \/ displayName C = Some EmptyString ->
      name C = None \/ name C = Some EmptyString ->
      tethered_displayName (withTether C) = "withTether(Component)").
Proof.
  assert (Hne : forall s : string,
            s <> EmptyString -> negb (String.eqb s EmptyString) = true).
  { intros s Hs. apply negb_true_iff, String.eqb_neq, Hs. }
  destruct C as [dn nm]. unfold withTether, or_else. simpl.
  split; [|split].
  - intros d -> Hd. simpl.
    rewrite (Hne d Hd). simpl. by rewrite ?(Hne d Hd).
  - intros n Hdn -> Hn.
    destruct Hdn as [-> | ->]; simpl;
      rewrite (Hne n Hn); simpl; by rewrite ?(Hne n Hn).
  - intros [-> | ->] [-> | ->]; reflexivity.
Qed.

(** C10. [isForwardRefComponent(x)] never throws, and it is [true] exactly
    when [x] is not [null], is of [typeof] "object", and has a [$$typeof]
    property, whatever that property holds: any object carrying the key
    passes, and every function, having [typeof] "function", fails. *)
Theorem isForwardRefComponent_spec (x : value) :
  (isForwardRefComponent x = Normal true
   \/ isForwardRefComponent x = Normal false)
  /\ (isForwardRefComponent x = Normal true
      <-> x <> VNull /\ typeof x = "object"
          /\ exists o, x = VObject o /\ has_property "$$typeof" o = true)
  /\ (forall (tag : value) (own : list (string * value)) (proto : option object),
        isForwardRefComponent (VObject (Obj (("$$typeof", tag) :: own) proto))
        = Normal true)
  /\ (forall o : object, isForwardRefComponent (VFunction o) = Normal false)
  /\ (forall f : closure, isForwardRefComponent (VClosure f) = Normal false).
Proof.
  split; [|split; [|repeat split]].
  - destruct x; simpl; auto. unfold isForwardRefComponent. simpl.
    destruct (has_property _ _); auto.
  - split.
    + destruct x; try discriminate. unfold isForwardRefComponent. simpl.
      intros [= H]. repeat split; [done|]. eauto.
    + intros (_ & _ & o & -> & H). unfold isForwardRefComponent. simpl.
      by rewrite H.
Qed.

(** ** The theorems at the sample inputs *)

Example sample_session_result :
  exists w l,
    sample_session empty_world = (Normal (Some l), w)
    /\ (props <$> heap w !! l)
       = Some (<["label" := VString "Hello World"]>
                 (<["color" := VString "#ff6b6b"]> ∅))
    /\ (metadata <$> heap w !! l)
       = Some (VObject (Obj [("userId", VNumber 123);
                             ("category", VString "greeting")] None)).
Proof.
  eexists _, _. split; [vm_compute; reflexivity|].
  split; vm_compute; reflexivity.
Qed.

Lemma register_get_roundtrip_witness :
  let w := two_providers in
  let c := {| tetherMapRef := 2%positive |} in
  is_Some (cells w !! tetherMapRef c)
  /\ getTether c (EElement 7%positive)
       (snd (registerTether c (EElement 7%positive) 5%positive w))
     = (Normal (Some 5%positive),
        snd (registerTether c (EElement 7%positive) 5%positive w)).
Proof.
  cbv zeta.
  assert (H : is_Some (cells two_providers !! 2%positive)).
  { vm_compute. eexists. reflexivity. }
  split; [exact H|].
  exact (proj1 (proj2 (register_get_roundtrip two_providers
                         {| tetherMapRef := 2%positive |}
                         7%positive 5%positive H))).
Defined.

Lemma register_overwrites_witness :
  let w := two_providers in
  let c := {| tetherMapRef := 1%positive |} in
  let w2 := snd (registerTether c (EElement 7%positive) 6%positive
                   (snd (registerTether c (EElement 7%positive) 5%positive w))) in
  is_Some (cells w !! tetherMapRef c)
  /\ getTether c (EElement 7%positive) w2 = (Normal (Some 6%positive), w2).
Proof.
  cbv zeta.
  assert (H : is_Some (cells two_providers !! 1%positive)).
  { vm_compute. eexists. reflexivity. }
  split; [exact H|].
  exact (proj1 (register_overwrites two_providers
                  {| tetherMapRef := 1%positive |}
                  7%positive 5%positive 6%positive H)).
Defined.

Lemma get_unregistered_absent_witness :
  let w1 := run sample_history (snd (TetherProvider 1%positive [] empty_world)) in
  cells empty_world !! 1%positive = None
  /\ Forall (fun a => ~ registers_on 1%positive 7%positive a) sample_history
  /\ getTether {| tetherMapRef := 1%positive |} (EElement 7%positive) w1
     = (Normal None, w1).
Proof.
  cbv zeta.
  assert (H1 : cells empty_world !! 1%positive = None) by reflexivity.
  assert (H2 : Forall (fun a => ~ registers_on 1%positive 7%positive a)
                 sample_history).
  { unfold sample_history.
    repeat constructor; simpl; try tauto; intros [? ?]; discriminate. }
  split; [exact H1|]. split; [exact H2|].
  exact (get_unregistered_absent empty_world 1%positive [] sample_history
           7%positive H1 H2).
Defined.

Lemma provider_isolation_witness :
  1%positive <> 2%positive
  /\ fst (getTether {| tetherMapRef := 2%positive |} (EElement 7%positive)
            two_providers)
     = Normal None
  /\ fst (getTether {| tetherMapRef := 2%positive |} (EElement 7%positive)
            (snd (registerTether {| tetherMapRef := 1%positive |}
                    (EElement 7%positive) 8%positive two_providers)))
     = Normal None.
Proof.
  assert (H : 1%positive <> 2%positive) by discriminate.
  split; [exact H|]. split; [vm_compute; reflexivity|].
  rewrite (proj1 (proj2 (proj2 (proj2 (proj2
             (provider_isolation two_providers 1%positive 2%positive [] [] H)))))
             (EElement 7%positive) (EElement 7%positive) 8%positive).
  vm_compute. reflexivity.
Defined.

Lemma withTether_displayName_witness :
  tethered_displayName (withTether SimpleBox) = "withTether(SimpleBox)"
  /\ tethered_displayName (withTether AnonymousComponent)
     = "withTether(Component)".
Proof.
  split.
  - apply (proj1 (withTether_displayName SimpleBox) "SimpleBox");
      [reflexivity | discriminate].
  - apply (proj2 (proj2 (withTether_displayName AnonymousComponent)));
      left; reflexivity.
Defined.

(** ** More on the store: histories, composition, records *)

Section Store.

Implicit Types (w : World) (c : TetherContextValue) (e : elem) (m : loc)
  (r : ref) (a : action).

Lemma registerTether_world w c (element : elem_arg) m :
  snd (registerTether c element m w)
  = match element, cells w !! tetherMapRef c with
    | EElement e, Some wm =>
        set_cells (insert (tetherMapRef c) (<[e := m]> wm)) w
    | _, _ => w
    end.
Proof.
  destruct element as [| |e]; try by rewrite registerTether_falsy.
  destruct (cells w !! tetherMapRef c) as [wm|] eqn:Hwm.
  - by rewrite (registerTether_element _ _ _ _ wm).
  - by rewrite registerTether_dangling.
Qed.

(** The ref callback is the accessor with its record filled in: both guard
    against [null]. *)
Lemma call_registerTether r m (element : elem_arg) w :
  call (CTetherRef r m) element w
  = registerTether {| tetherMapRef := r |} element m w.
Proof. by destruct element. Qed.

Lemma TetheredComponent_heap (W : ComponentType) (p : gmap string value)
    (ctx : context) w l (rec : TetherMetadata) :
  heap w !! l = Some rec ->
  heap (snd (TetheredComponent W p ctx w)) !! l = Some rec.
Proof.
  intros Hl. unfold TetheredComponent, useTetherContext, useContext, bind.
  destruct ctx as [|c ctx]; simpl; [done|].
  rewrite lookup_insert_ne; [done|].
  intros <-. pose proof (is_fresh (dom (heap w))) as Hf.
  apply Hf, elem_of_dom. eauto.
Qed.

Lemma step_cells w a r e wm :
  cells w !! r = Some wm ->
  exists wm',
    cells (step w a) !! r = Some wm'
    /\ wm' !! e = match registration r e a with
                  | Some m => Some m
                  | None => wm !! e
                  end.
Proof.
  intros Hr.
  assert (Hreg : forall c (element : elem_arg) m,
    exists wm',
      cells (snd (registerTether c element m w)) !! r = Some wm'
      /\ wm' !! e = match element with
                    | EElement e' =>
                        if decide (tetherMapRef c = r /\ e' = e) then Some m
                        else wm !! e
                    | _ => wm !! e
                    end).
  { intros c element m. rewrite registerTether_cells.
    destruct element as [| |e']; try by eauto.
    destruct (cells w !! tetherMapRef c) as [wmc|] eqn:Hc.
    - destruct (decide (tetherMapRef c = r)) as [Heq|Hne].
      + rewrite Heq, Hr in Hc. injection Hc as <-.
        eexists. split; [done|].
        destruct (decide (e' = e)) as [->|Hne].
        * rewrite lookup_insert_eq, decide_True; done.
        * rewrite lookup_insert_ne, decide_False; [done|tauto|done].
      + exists wm. split; [done|]. rewrite decide_False; [done|tauto].
    - exists wm. split; [done|].
      case_decide as Hd; [|done]. destruct Hd as [Heq _]. congruence. }
  destruct a as [c element m|c element|[r' m] element|inst enclosing|W p ctx];
    cbn [step registration].
  - destruct (Hreg c element m) as (wm' & H1 & H2).
    exists wm'. split; [done|]. rewrite H2.
    destruct element; try done. by case_decide.
  - rewrite getTether_pure. eauto.
  - rewrite call_registerTether.
    destruct (Hreg {| tetherMapRef := r' |} element m) as (wm' & H1 & H2).
    exists wm'. split; [done|]. rewrite H2.
    destruct element; try done.
    change (tetherMapRef {| tetherMapRef := r' |}) with r'.
    clear H2. repeat case_decide; done || tauto.
  - rewrite TetherProvider_run. simpl.
    destruct (cells w !! inst) eqn:Hi; [by eauto|]. simpl.
    rewrite lookup_insert_ne; [by eauto|]. intros ->. congruence.
  - cbn [withTether render]. rewrite TetheredComponent_cells. eauto.
Qed.

Lemma run_snoc (acts : list action) a w :
  run (acts ++ [a]) w = step (run acts w) a.
Proof. unfold run. by rewrite foldl_app. Qed.

Lemma last_registration_snoc r e (acts : list action) a :
  last_registration r e (acts ++ [a])
  = match registration r e a with
    | Some m => Some m
    | None => last_registration r e acts
    end.
Proof.
  unfold last_registration. rewrite omap_app. simpl.
  destruct (registration r e a) as [m|].
  - by rewrite last_snoc.
  - by rewrite app_nil_r.
Qed.

Lemma run_cells (acts : list action) w r e wm :
  cells w !! r = Some wm ->
  exists wm',
    cells (run acts w) !! r = Some wm'
    /\ wm' !! e = match last_registration r e acts with
                  | Some m => Some m
                  | None => wm !! e
                  end.
Proof.
  intros Hr. induction acts as [|a acts IH] using rev_ind.
  - exists wm. by split.
  - destruct IH as (wm1 & H1 & H2).
    destruct (step_cells (run acts w) a r e wm1 H1) as (wm2 & H3 & H4).
    exists wm2. rewrite run_snoc, last_registration_snoc.
    split; [done|]. rewrite H4.
    by destruct (registration r e a).
Qed.

Lemma step_heap w a l (rec : TetherMetadata) :
  heap w !! l = Some rec -> heap (step w a) !! l = Some rec.
Proof.
  intros Hl.
  destruct a as [c element m|c element|[r' m] element|inst enclosing|W p ctx];
    cbn [step withTether render].
  - by rewrite registerTether_heap.
  - by rewrite getTether_pure.
  - by rewrite call_registerTether, registerTether_heap.
  - rewrite TetherProvider_run. simpl. by destruct (cells w !! inst).
  - by apply TetheredComponent_heap.
Qed.

End Store.

(** X1. Last registration wins: on a store that exists, after any history
    of accessor calls, ref callbacks and renders, [getTether(e)] returns the
    record of the last [registerTether(e, _)] made on that store in the
    history, and what the store held for [e] before when there was none. *)
Theorem last_registration_wins (w : World) (r : ref) (e : elem)
    (acts : list action) (wm : WeakMap) :
  cells w !! r = Some wm ->
  let w1 := run acts w in
  getTether {| tetherMapRef := r |} (EElement e) w1
  = (Normal (match last_registration r e acts with
             | Some m => Some m
             | None => wm !! e
             end), w1).
Proof.
  intros Hr. cbv zeta.
  destruct (run_cells acts w r e wm Hr) as (wm' & H1 & H2).
  erewrite getTether_element by exact H1. by rewrite H2.
Qed.

(** X2. Nothing unregisters: once [getTether(e)] returns a record on a
    store, it returns some record after every later history; no callback
    with [null], no render and no lookup removes the entry. *)
Theorem registered_stays_registered (w : World) (c : TetherContextValue)
    (e : elem) (m0 : loc) (acts : list action) :
  getTether c (EElement e) w = (Normal (Some m0), w) ->
  exists m,
    getTether c (EElement e) (run acts w) = (Normal (Some m), run acts w).
Proof.
  intros Hget.
  destruct (cells w !! tetherMapRef c) as [wm|] eqn:Hr.
  - rewrite (getTether_element _ _ _ wm Hr) in Hget.
    injection Hget as Hm0.
    destruct (run_cells acts w (tetherMapRef c) e wm Hr) as (wm' & H1 & H2).
    exists (default m0 (last_registration (tetherMapRef c) e acts)).
    erewrite getTether_element by exact H1. rewrite H2, Hm0.
    by destruct (last_registration _ _ _).
  - unfold getTether, WeakMap_get, bind, current in Hget.
    rewrite Hr in Hget. discriminate.
Qed.

(** X3. Records are never changed: a record on the heap is still there,
    with the same [props] and [metadata], after every history. *)
Theorem records_never_change (w : World) (acts : list action) (l : loc)
    (rec : TetherMetadata) :
  heap w !! l = Some rec -> heap (run acts w) !! l = Some rec.
Proof.
  revert w. induction acts as [|a acts IH]; intros w Hl; [done|].
  apply (IH (step w a)). by apply step_heap.
Qed.

(** X4. Registering the same record for the same element twice is the same
    as registering it once. *)
Theorem register_idempotent (w : World) (c : TetherContextValue)
    (element : elem_arg) (m : loc) :
  snd (registerTether c element m (snd (registerTether c element m w)))
  = snd (registerTether c element m w).
Proof.
  rewrite !registerTether_world.
  destruct element as [| |e]; try done.
  destruct (cells w !! tetherMapRef c) as [wm|] eqn:Hr.
  - simpl. rewrite lookup_insert_eq.
    unfold set_cells. simpl. by rewrite !insert_insert_eq.
  - by rewrite Hr.
Qed.

(** X5. Registrations for different elements, or on different stores,
    commute: the world does not depend on their order. *)
Theorem register_commutes (w : World) (c1 c2 : TetherContextValue)
    (e1 e2 : elem) (m1 m2 : loc) :
  tetherMapRef c1 <> tetherMapRef c2 \/ e1 <> e2 ->
  snd (registerTether c2 (EElement e2) m2
         (snd (registerTether c1 (EElement e1) m1 w)))
  = snd (registerTether c1 (EElement e1) m1
           (snd (registerTether c2 (EElement e2) m2 w))).
Proof.
  intros Hne. rewrite !registerTether_world.
  destruct c1 as [r1], c2 as [r2]. simpl in *.
  destruct (decide (r1 = r2)) as [->|Hr].
  - destruct Hne as [Hne|Hne]; [done|].
    destruct (cells w !! r2) as [wm|] eqn:H2; rewrite ?H2; [|done].
    simpl. rewrite !lookup_insert_eq.
    unfold set_cells. simpl. rewrite !insert_insert_eq.
    by rewrite (insert_insert_ne wm).
  - destruct (cells w !! r1) as [wm1|] eqn:H1;
      destruct (cells w !! r2) as [wm2|] eqn:H2; simpl;
      rewrite ?lookup_insert_ne by done; rewrite ?H1, ?H2; try done.
    unfold set_cells. simpl.
    by rewrite (insert_insert_ne (cells w)).
Qed.

(** ** More on the wrapper *)

Section Wrapper.

Implicit Types (w : World) (c : TetherContextValue) (e : elem)
  (W : ComponentType) (p : gmap string value) (ctx : context).

(** One mount, step by step. *)
Lemma mount_run w W p c ctx e wm :
  cells w !! tetherMapRef c = Some wm ->
  let l := fresh (dom (heap w)) in
  let rest := delete "tetherMetadata" p in
  mount W p (c :: ctx) (EElement e) w
  = (Normal {| el_type := W;
               el_props :=
                 <["ref" := VClosure (CTetherRef (tetherMapRef c) l)]> rest |},
     set_cells (insert (tetherMapRef c) (<[e := l]> wm))
       (set_heap
          (insert l (mkTetherMetadata rest
                       (default VUndefined (p !! "tetherMetadata")))) w)).
Proof.
  intros Hr. cbv zeta.
  unfold mount, bind at 1.
  change (render (withTether W) p (c :: ctx) w)
    with (Normal {| el_type := W;
                    el_props :=
                      <["ref" := VClosure (CTetherRef (tetherMapRef c)
                                             (fresh (dom (heap w))))]>
                        (delete "tetherMetadata" p) |},
          set_heap
            (insert (fresh (dom (heap w)))
               (mkTetherMetadata (delete "tetherMetadata" p)
                  (default VUndefined (p !! "tetherMetadata")))) w).
  cbv beta iota. unfold bind, attach. cbn [el_props].
  rewrite lookup_insert_eq. rewrite call_registerTether.
  erewrite registerTether_element by (simpl; exact Hr).
  by destruct c.
Qed.

Lemma render_run w W p c ctx :
  render (withTether W) p (c :: ctx) w
  = (Normal {| el_type := W;
               el_props :=
                 <["ref" := VClosure (CTetherRef (tetherMapRef c)
                                        (fresh (dom (heap w))))]>
                   (delete "tetherMetadata" p) |},
     set_heap
       (insert (fresh (dom (heap w)))
          (mkTetherMetadata (delete "tetherMetadata" p)
             (default VUndefined (p !! "tetherMetadata")))) w).
Proof. reflexivity. Qed.

(** Whatever the element, the world after a mount is the world after the
    render followed by the registration of the new record. *)
Lemma mount_world w W p c ctx (element : elem_arg) :
  snd (mount W p (c :: ctx) element w)
  = snd (registerTether c element (fresh (dom (heap w)))
           (set_heap
              (insert (fresh (dom (heap w)))
                 (mkTetherMetadata (delete "tetherMetadata" p)
                    (default VUndefined (p !! "tetherMetadata")))) w)).
Proof.
  unfold mount, bind at 1. rewrite render_run. cbv beta iota.
  unfold bind, attach. cbn [el_props].
  rewrite lookup_insert_eq, call_registerTether.
  destruct c as [r]. cbn [tetherMapRef].
  by destruct (registerTether _ _ _ _) as [[[]|err] w'].
Qed.

(** Detaching the old callback does nothing, so a later render acts on the
    world as a mount does. *)
Lemma rerender_as_mount w W p ctx (old : ReactElement) (f : closure)
    (element : elem_arg) :
  el_props old !! "ref" = Some (VClosure f) ->
  rerender W p ctx old element w = mount W p ctx element w.
Proof.
  intros Hold. unfold rerender, mount, bind at 1 4.
  destruct (render (withTether W) p ctx w) as [[el|err] w']; [|done].
  unfold bind at 1. unfold attach at 1. rewrite Hold.
  by destruct f.
Qed.

Lemma getTetherRecord_run w c e wm l (rec : TetherMetadata) :
  cells w !! tetherMapRef c = Some wm ->
  wm !! e = Some l ->
  heap w !! l = Some rec ->
  getTetherRecord c (EElement e) w = (Normal (Some rec), w).
Proof.
  intros Hr He Hl. unfold getTetherRecord, bind at 1.
  rewrite (getTether_element _ _ _ wm Hr), He.
  unfold bind, deref. by rewrite Hl.
Qed.

Lemma getTether_cells_eq w1 w2 c (x : elem_arg) :
  cells w1 !! tetherMapRef c = cells w2 !! tetherMapRef c ->
  fst (getTether c x w1) = fst (getTether c x w2).
Proof.
  intros Heq. unfold getTether, WeakMap_get, bind, current. rewrite Heq.
  destruct (cells w2 !! tetherMapRef c); [by destruct x | done].
Qed.

End Wrapper.

(** X6. Mount, then look up: under a provider whose store exists, after a
    tethered component is rendered with props [p] and its root node [e] is
    attached, the record found for [e] has as [props] the props without
    [tetherMetadata], and as [metadata] the value of [tetherMetadata]
    ([undefined] when it was not passed). *)
Theorem mount_then_lookup (w : World) (W : ComponentType)
    (p : gmap string value) (c : TetherContextValue) (ctx : context)
    (e : elem) :
  is_Some (cells w !! tetherMapRef c) ->
  fst ((let! _ := mount W p (c :: ctx) (EElement e) in
        getTetherRecord c (EElement e)) w)
  = Normal (Some (mkTetherMetadata (delete "tetherMetadata" p)
                    (default VUndefined (p !! "tetherMetadata")))).
Proof.
  intros [wm Hr]. unfold bind at 1.
  rewrite (mount_run w W p c ctx e wm Hr). cbv beta iota zeta.
  erewrite getTetherRecord_run; [done| | |].
  - simpl. apply lookup_insert_eq.
  - apply lookup_insert_eq.
  - simpl. apply lookup_insert_eq.
Qed.

(** X7. No stale data after an update: when the component is rendered again
    with other props [p2] and the framework swaps the ref callbacks (old one
    called with [null], new one with the same node), the record found for
    the node is the one of [p2]. *)
Theorem rerender_replaces_record (w : World) (W : ComponentType)
    (p1 p2 : gmap string value) (c : TetherContextValue) (ctx : context)
    (e : elem) :
  is_Some (cells w !! tetherMapRef c) ->
  fst ((let! el1 := mount W p1 (c :: ctx) (EElement e) in
        let! _ := rerender W p2 (c :: ctx) el1 (EElement e) in
        getTetherRecord c (EElement e)) w)
  = Normal (Some (mkTetherMetadata (delete "tetherMetadata" p2)
                    (default VUndefined (p2 !! "tetherMetadata")))).
Proof.
  intros [wm Hr]. unfold bind at 1.
  rewrite (mount_run w W p1 c ctx e wm Hr). cbv beta iota zeta.
  unfold bind at 1.
  erewrite rerender_as_mount by (simpl; apply lookup_insert_eq).
  erewrite mount_run by (simpl; apply lookup_insert_eq).
  cbv beta iota zeta.
  erewrite getTetherRecord_run; [done| | |].
  - simpl. apply lookup_insert_eq.
  - apply lookup_insert_eq.
  - simpl. apply lookup_insert_eq.
Qed.


(** X9. The display name always names something: it is [withTether(<inner>)]
    with a non-empty <inner>, never [withTether()] and never built from
    [undefined]. *)
Theorem withTether_displayName_nonempty (C : ComponentType) :
  exists inner : string,
    inner <> EmptyString
    /\ (inner = "Component" \/ displayName C = Some inner
        \/ name C = Some inner)
    /\ tethered_displayName (withTether C) = "withTether(" ++ inner ++ ")".
Proof.
  assert (Hne : forall s : string,
            truthy_string (Some s) = true -> s <> EmptyString).
  { intros s Hs. by apply String.eqb_neq, negb_true_iff. }
  destruct C as [dn nm]. unfold withTether, or_else. simpl.
  destruct (truthy_string dn) eqn:Hd.
  - destruct dn as [d|]; [|discriminate]. rewrite Hd.
    exists d. split; [by apply Hne|]. by auto.
  - destruct (truthy_string nm) eqn:Hn.
    + destruct nm as [n|]; [|discriminate]. rewrite ?Hn.
      exists n. split; [by apply Hne|]. by auto.
    + exists "Component". by auto.
Qed.

(** X10. A tethered component registers on the nearest provider only:
    whatever it is mounted with, no answer of the [getTether] of any other
    provider's store changes, enclosing providers included. *)
Theorem mount_registers_on_nearest_only (w : World) (W : ComponentType)
    (p : gmap string value) (c c' : TetherContextValue) (ctx : context)
    (element x : elem_arg) :
  tetherMapRef c' <> tetherMapRef c ->
  fst (getTether c' x (snd (mount W p (c :: ctx) element w)))
  = fst (getTether c' x w).
Proof.
  intros Hne. apply getTether_cells_eq.
  rewrite mount_world, registerTether_cells. simpl.
  destruct element as [| |e]; try done.
  destruct (cells w !! tetherMapRef c); [|done].
  by rewrite decide_False.
Qed.

(** X11. Lookups are safe: on a store that exists, [getTether] never throws
    and never changes the world, whatever it is given; for [null] and
    [undefined] it returns [undefined]. *)
Theorem getTether_never_throws (w : World) (c : TetherContextValue) :
  is_Some (cells w !! tetherMapRef c) ->
  getTether c ENull w = (Normal None, w)
  /\ getTether c EUndefined w = (Normal None, w)
  /\ (forall element : elem_arg,
        exists t, getTether c element w = (Normal t, w)).
Proof.
  intros [wm Hr].
  assert (H : forall element : elem_arg,
    getTether c element w
    = (Normal (match element with
               | EElement e => wm !! e
               | _ => None
               end), w)).
  { intros element. unfold getTether, WeakMap_get, bind, current.
    rewrite Hr. by destruct element. }
  split; [apply H|]. split; [apply H|].
  intros element. rewrite H. eauto.
Qed.

(** ** The example hooks *)

Section Examples.

Implicit Types (w : World) (c : TetherContextValue) (element : elem_arg).

Lemma getTetherRecord_inv w c element (rec : TetherMetadata) :
  getTetherRecord c element w = (Normal (Some rec), w) ->
  exists l,
    getTether c element w = (Normal (Some l), w) /\ heap w !! l = Some rec.
Proof.
  unfold getTetherRecord, bind at 1.
  pose proof (getTether_pure w c element) as Hpure.
  destruct (getTether c element w) as [[[l|]|err] w']; simpl in Hpure; subst w';
    try discriminate.
  unfold bind, deref.
  destruct (heap w !! l) as [rec'|] eqn:Hl; [|discriminate].
  intros [= <-]. eauto.
Qed.

Lemma getUserMetadata_run w c element l (rec : TetherMetadata) :
  getTether c element w = (Normal (Some l), w) ->
  heap w !! l = Some rec ->
  getUserMetadata c element w
  = (if truthy_value (metadata rec) then
       match js_in "userId" (metadata rec) with
       | Normal has => Normal (if has then metadata rec else VUndefined)
       | Throw err => Throw err
       end
     else Normal VUndefined, w).
Proof.
  intros Hget Hl. unfold getUserMetadata, bind at 1. rewrite Hget.
  unfold bind at 1, deref. rewrite Hl.
  destruct (truthy_value (metadata rec)); [|done].
  unfold bind, lift.
  destruct (js_in "userId" (metadata rec)) as [[]|err]; done.
Qed.

End Examples.

(** X12. [getTypedMetadata] of the example hook [useTypedTether]: for the
    node of a mounted tethered component it returns the [tetherMetadata]
    that was passed, [undefined] when none was; and [undefined] as well for
    an element with no registration. *)
Theorem getTypedMetadata_after_mount (w : World) (W : ComponentType)
    (p : gmap string value) (c : TetherContextValue) (ctx : context)
    (e : elem) :
  is_Some (cells w !! tetherMapRef c) ->
  fst ((let! _ := mount W p (c :: ctx) (EElement e) in
        let! getTypedMetadata := useTypedTether (c :: ctx) in
        getTypedMetadata (EElement e)) w)
  = Normal (default VUndefined (p !! "tetherMetadata"))
  /\ (forall x : elem_arg,
        getTether c x w = (Normal None, w) ->
        getTypedMetadata c x w = (Normal VUndefined, w)).
Proof.
  intros [wm Hr]. split.
  - unfold bind at 1.
    rewrite (mount_run w W p c ctx e wm Hr). cbv beta iota zeta.
    unfold useTypedTether, useTetherContext, useContext.
    change (head (c :: ctx)) with (Some c).
    unfold bind at 1 2, ret at 1 2. cbv beta iota.
    unfold getTypedMetadata, bind at 1.
    erewrite getTether_element by (simpl; apply lookup_insert_eq).
    rewrite lookup_insert_eq. unfold bind, deref. simpl.
    by rewrite lookup_insert_eq.
  - intros x Hx. unfold getTypedMetadata, bind. by rewrite Hx.
Qed.

(** X13. [getUserMetadata] of the example hook [useUserTether]: when the
    record of the element carries an object as metadata, the object is
    returned if it has a [userId] property, own or inherited, and
    [undefined] is returned if it has none. *)
Theorem getUserMetadata_object (w : World) (c : TetherContextValue)
    (element : elem_arg) (rec : TetherMetadata) (o : object) :
  getTetherRecord c element w = (Normal (Some rec), w) ->
  metadata rec = VObject o ->
  getUserMetadata c element w
  = (Normal (if has_property "userId" o then VObject o else VUndefined), w).
Proof.
  intros Hrec Hmd.
  destruct (getTetherRecord_inv w c element rec Hrec) as (l & Hget & Hl).
  rewrite (getUserMetadata_run w c element l rec Hget Hl), Hmd. done.
Qed.

(** X14. [getUserMetadata] on other metadata: [undefined] is returned when
    the element has no registration or its metadata is falsy; and when the
    metadata is a truthy primitive (a non-zero number, a non-empty string,
    [true], a symbol), the [in] test throws a TypeError. *)
Theorem getUserMetadata_not_object (w : World) (c : TetherContextValue)
    (element : elem_arg) :
  (getTether c element w = (Normal None, w) ->
   getUserMetadata c element w = (Normal VUndefined, w))
  /\ (forall rec : TetherMetadata,
        getTetherRecord c element w = (Normal (Some rec), w) ->
        truthy_value (metadata rec) = false ->
        getUserMetadata c element w = (Normal VUndefined, w))
  /\ (forall rec : TetherMetadata,
        getTetherRecord c element w = (Normal (Some rec), w) ->
        truthy_value (metadata rec) = true ->
        typeof (metadata rec) <> "object" ->
        typeof (metadata rec) <> "function" ->
        exists msg,
          getUserMetadata c element w = (Throw (TypeError msg), w)).
Proof.
  split; [|split].
  - intros Hget. unfold getUserMetadata, bind. by rewrite Hget.
  - intros rec Hrec Hfalsy.
    destruct (getTetherRecord_inv w c element rec Hrec) as (l & Hget & Hl).
    by rewrite (getUserMetadata_run w c element l rec Hget Hl), Hfalsy.
  - intros rec Hrec Htruthy Hobj Hfun.
    destruct (getTetherRecord_inv w c element rec Hrec) as (l & Hget & Hl).
    rewrite (getUserMetadata_run w c element l rec Hget Hl), Htruthy.
    destruct (metadata rec); simpl in *; try discriminate; try done; eauto.
Qed.

(** X15. Inside a provider the accessor never throws: under a rendered
    provider instance, whatever encloses it, [useTetherContext] returns that
    instance's accessors, and their store exists, then and after every later
    history. *)
Theorem useTetherContext_inside_provider (w : World) (inst : ref)
    (enclosing : context) (acts : list action) :
  let w1 := snd (TetherProvider inst enclosing w) in
  (let! ctx := TetherProvider inst enclosing in useTetherContext ctx) w
  = (Normal {| tetherMapRef := inst |}, w1)
  /\ is_Some (cells (run acts w1) !! inst).
Proof.
  cbv zeta. unfold bind. rewrite TetherProvider_run. simpl.
  split; [done|].
  assert (H : is_Some (cells (match cells w !! inst with
                              | Some _ => w
                              | None => set_cells (insert inst (∅ : WeakMap)) w
                              end) !! inst)).
  { destruct (cells w !! inst) eqn:Hi.
    - rewrite Hi. eauto.
    - simpl. rewrite lookup_insert_eq. eauto. }
  destruct H as [wm Hwm].
  destruct (run_cells acts _ inst 1%positive wm Hwm) as (wm' & H1 & _).
  rewrite H1. eauto.
Qed.

(** ** The further theorems at the sample inputs *)

Lemma last_registration_wins_witness :
  let c := {| tetherMapRef := 1%positive |} in
  cells two_providers !! 1%positive = Some {[ 7%positive := 4%positive ]}
  /\ getTether c (EElement 7%positive) (run update_history two_providers)
     = (Normal (Some 8%positive), run update_history two_providers).
Proof.
  cbv zeta.
  assert (H : cells two_providers !! 1%positive
              = Some {[ 7%positive := 4%positive ]}).
  { vm_compute. reflexivity. }
  split; [exact H|].
  exact (last_registration_wins two_providers 1%positive 7%positive
           update_history _ H).
Defined.

Lemma registered_stays_registered_witness :
  let c := {| tetherMapRef := 1%positive |} in
  getTether c (EElement 7%positive) two_providers
  = (Normal (Some 4%positive), two_providers)
  /\ exists m,
       getTether c (EElement 7%positive) (run sample_history two_providers)
       = (Normal (Some m), run sample_history two_providers).
Proof.
  cbv zeta.
  assert (H : getTether {| tetherMapRef := 1%positive |} (EElement 7%positive)
                two_providers
              = (Normal (Some 4%positive), two_providers)).
  { vm_compute. reflexivity. }
  split; [exact H|].
  exact (registered_stays_registered two_providers _ 7%positive 4%positive
           sample_history H).
Defined.

Lemma records_never_change_witness :
  let rec := mkTetherMetadata (<["label" := VString "Box"]> ∅) (VNumber 5) in
  heap (world_with_metadata (VNumber 5)) !! 1%positive = Some rec
  /\ heap (run update_history (world_with_metadata (VNumber 5))) !! 1%positive
     = Some rec.
Proof.
  cbv zeta.
  assert (H : heap (world_with_metadata (VNumber 5)) !! 1%positive
              = Some (mkTetherMetadata (<["label" := VString "Box"]> ∅)
                        (VNumber 5))).
  { vm_compute. reflexivity. }
  split; [exact H|].
  exact (records_never_change (world_with_metadata (VNumber 5)) update_history
           1%positive _ H).
Defined.

Lemma register_commutes_witness :
  let c1 := {| tetherMapRef := 1%positive |} in
  let c2 := {| tetherMapRef := 2%positive |} in
  (tetherMapRef c1 <> tetherMapRef c2 \/ 7%positive <> 7%positive)
  /\ snd (registerTether c2 (EElement 7%positive) 5%positive
            (snd (registerTether c1 (EElement 7%positive) 6%positive
                    two_providers)))
     = snd (registerTether c1 (EElement 7%positive) 6%positive
              (snd (registerTether c2 (EElement 7%positive) 5%positive
                      two_providers))).
Proof.
  cbv zeta.
  assert (H : tetherMapRef {| tetherMapRef := 1%positive |}
              <> tetherMapRef {| tetherMapRef := 2%positive |}
              \/ 7%positive <> 7%positive).
  { left. simpl. discriminate. }
  split; [exact H|].
  exact (register_commutes two_providers _ _ 7%positive 7%positive
           6%positive 5%positive H).
Defined.

Lemma mount_then_lookup_witness :
  let c := {| tetherMapRef := 2%positive |} in
  is_Some (cells two_providers !! tetherMapRef c)
  /\ fst ((let! _ := mount SimpleBox sample_props [c] (EElement 9%positive) in
           getTetherRecord c (EElement 9%positive)) two_providers)
     = Normal (Some (mkTetherMetadata (delete "tetherMetadata" sample_props)
                       (default VUndefined
                          (sample_props !! "tetherMetadata")))).
Proof.
  cbv zeta.
  assert (H : is_Some (cells two_providers !! 2%positive)).
  { vm_compute. eexists. reflexivity. }
  split; [exact H|].
  exact (mount_then_lookup two_providers SimpleBox sample_props
           {| tetherMapRef := 2%positive |} [] 9%positive H).
Defined.

Lemma rerender_replaces_record_witness :
  let c := {| tetherMapRef := 2%positive |} in
  let p2 : gmap string value := <["label" := VString "Bye"]> ∅ in
  is_Some (cells two_providers !! tetherMapRef c)
  /\ fst ((let! el1 := mount SimpleBox sample_props [c] (EElement 9%positive) in
           let! _ := rerender SimpleBox p2 [c] el1 (EElement 9%positive) in
           getTetherRecord c (EElement 9%positive)) two_providers)
     = Normal (Some (mkTetherMetadata (delete "tetherMetadata" p2)
                       (default VUndefined (p2 !! "tetherMetadata")))).
Proof.
  cbv zeta.
  assert (H : is_Some (cells two_providers !! 2%positive)).
  { vm_compute. eexists. reflexivity. }
  split; [exact H|].
  exact (rerender_replaces_record two_providers SimpleBox sample_props
           (<["label" := VString "Bye"]> ∅)
           {| tetherMapRef := 2%positive |} [] 9%positive H).
Defined.

Lemma mount_registers_on_nearest_only_witness :
  let inner := {| tetherMapRef := 2%positive |} in
  let outer := {| tetherMapRef := 1%positive |} in
  tetherMapRef outer <> tetherMapRef inner
  /\ fst (getTether outer (EElement 7%positive)
            (snd (mount SimpleBox sample_props [inner; outer]
                    (EElement 7%positive) two_providers)))
     = fst (getTether outer (EElement 7%positive) two_providers).
Proof.
  cbv zeta.
  assert (H : tetherMapRef {| tetherMapRef := 1%positive |}
              <> tetherMapRef {| tetherMapRef := 2%positive |}).
  { simpl. discriminate. }
  split; [exact H|].
  exact (mount_registers_on_nearest_only two_providers SimpleBox sample_props
           {| tetherMapRef := 2%positive |} {| tetherMapRef := 1%positive |}
           [{| tetherMapRef := 1%positive |}]
           (EElement 7%positive) (EElement 7%positive) H).
Defined.

Lemma getTether_never_throws_witness :
  let c := {| tetherMapRef := 1%positive |} in
  is_Some (cells two_providers !! tetherMapRef c)
  /\ getTether c ENull two_providers = (Normal None, two_providers).
Proof.
  cbv zeta.
  assert (H : is_Some (cells two_providers !! 1%positive)).
  { vm_compute. eexists. reflexivity. }
  split; [exact H|].
  exact (proj1 (getTether_never_throws two_providers
                  {| tetherMapRef := 1%positive |} H)).
Defined.

Lemma getTypedMetadata_after_mount_witness :
  let c := {| tetherMapRef := 2%positive |} in
  is_Some (cells two_providers !! tetherMapRef c)
  /\ fst ((let! _ := mount SimpleBox sample_props [c] (EElement 9%positive) in
           let! getTypedMetadata := useTypedTether [c] in
           getTypedMetadata (EElement 9%positive)) two_providers)
     = Normal (default VUndefined (sample_props !! "tetherMetadata")).
Proof.
  cbv zeta.
  assert (H : is_Some (cells two_providers !! 2%positive)).
  { vm_compute. eexists. reflexivity. }
  split; [exact H|].
  exact (proj1 (getTypedMetadata_after_mount two_providers SimpleBox
                  sample_props {| tetherMapRef := 2%positive |} []
                  9%positive H)).
Defined.

Lemma getUserMetadata_object_witness :
  let o := Obj [("userId", VNumber 123)] None in
  let w := world_with_metadata (VObject o) in
  let c := {| tetherMapRef := 1%positive |} in
  let rec := mkTetherMetadata (<["label" := VString "Box"]> ∅) (VObject o) in
  getTetherRecord c (EElement 7%positive) w = (Normal (Some rec), w)
  /\ getUserMetadata c (EElement 7%positive) w = (Normal (VObject o), w).
Proof.
  cbv zeta.
  assert (H : getTetherRecord {| tetherMapRef := 1%positive |}
                (EElement 7%positive)
                (world_with_metadata
                   (VObject (Obj [("userId", VNumber 123)] None)))
              = (Normal (Some (mkTetherMetadata
                                 (<["label" := VString "Box"]> ∅)
                                 (VObject (Obj [("userId", VNumber 123)] None)))),
                 world_with_metadata
                   (VObject (Obj [("userId", VNumber 123)] None)))).
  { vm_compute. reflexivity. }
  split; [exact H|].
  exact (getUserMetadata_object _ _ _ _ (Obj [("userId", VNumber 123)] None)
           H eq_refl).
Defined.

Lemma getUserMetadata_not_object_witness :
  let w := world_with_metadata (VNumber 5) in
  let c := {| tetherMapRef := 1%positive |} in
  let rec := mkTetherMetadata (<["label" := VString "Box"]> ∅) (VNumber 5) in
  getTetherRecord c (EElement 7%positive) w = (Normal (Some rec), w)
  /\ exists msg,
       getUserMetadata c (EElement 7%positive) w = (Throw (TypeError msg), w).
Proof.
  cbv zeta.
  assert (H : getTetherRecord {| tetherMapRef := 1%positive |}
                (EElement 7%positive) (world_with_metadata (VNumber 5))
              = (Normal (Some (mkTetherMetadata
                                 (<["label" := VString "Box"]> ∅)
                                 (VNumber 5))),
                 world_with_metadata (VNumber 5))).
  { vm_compute. reflexivity. }
  split; [exact H|].
  apply (proj2 (proj2 (getUserMetadata_not_object
                         (world_with_metadata (VNumber 5))
                         {| tetherMapRef := 1%positive |}
                         (EElement 7%positive))) _ H);
    [reflexivity | discriminate | discriminate].
Defined.
